(** * update_version.py: stamping plugin.cfg with the git description

    A shallow embedding of [update_version.py].  The script reads
    [plugin.cfg], asks git for a description of the checkout, turns every
    hyphen after the first one into a plus, rewrites each [version=] line
    and writes the file back.

    Python's [str] is embedded as [string]; a character is a code point
    below 256.  Indices are [Z], because [str.find] answers [-1] and a
    slice bound may be negative. *)

From Stdlib Require Import ZArith Lia Bool List Ascii String.
Import ListNotations.

Open Scope string_scope.
Open Scope Z_scope.

(** ** The methods of [str] the script calls *)

Module Py.

(** [len(s)] *)
Definition len (s : string) : Z := Z.of_nat (String.length s).

(** A slice bound, the way [s[lo:hi]] reads it: a negative bound counts
    from the end, and the result is clipped to [0 .. len(s)]. *)
Definition bound (n : nat) (i : Z) : nat :=
  let j := if i <? 0 then i + Z.of_nat n else i in
  Z.to_nat (Z.min (Z.max j 0) (Z.of_nat n)).

(** [s[lo:hi]]; [None] is an omitted bound. *)
Definition slice (s : string) (lo hi : option Z) : string :=
  let n := String.length s in
  let a := match lo with None => 0%nat | Some i => bound n i end in
  let b := match hi with None => n | Some i => bound n i end in
  String.substring a (b - a) s.

(** [s.startswith(p)] *)
Definition startswith (s p : string) : bool := String.prefix p s.

(** [s.count(sub)]: the occurrences of [sub] in [s] that do not overlap,
    scanning from the left.  [skip] is the number of characters still
    covered by the occurrence found last. *)
Fixpoint count_from (skip : nat) (s sub : string) : Z :=
  match s with
  | EmptyString =>
      match skip with
      | O => if String.prefix sub EmptyString then 1 else 0
      | S _ => 0
      end
  | String _ s' =>
      match skip with
      | S k => count_from k s' sub
      | O =>
          if String.prefix sub s
          then 1 + count_from (Nat.pred (String.length sub)) s' sub
          else count_from O s' sub
      end
  end.

Definition count (s sub : string) : Z := count_from O s sub.

(** [s.find(sub)]: the lowest index at which [sub] occurs, or [-1]. *)
Fixpoint find_from (i : Z) (s sub : string) : Z :=
  if String.prefix sub s then i
  else match s with
       | EmptyString => -1
       | String _ s' => find_from (i + 1) s' sub
       end.

Definition find (s sub : string) : Z := find_from 0 s sub.

(** [s.replace(old, new)]: every occurrence of [old], found as [count]
    finds them, becomes [new]. *)
Fixpoint replace_from (skip : nat) (s old new : string) : string :=
  match s with
  | EmptyString =>
      match skip with
      | O => if String.prefix old EmptyString then new else EmptyString
      | S _ => EmptyString
      end
  | String c s' =>
      match skip with
      | S k => replace_from k s' old new
      | O =>
          if String.prefix old s
          then new ++
               match String.length old with
               | O => String c (replace_from O s' old new)
               | S k => replace_from k s' old new
               end
          else String c (replace_from O s' old new)
      end
  end.

Definition replace (s old new : string) : string := replace_from O s old new.

(** [c.isspace()] for a code point below 256: tab, line feed, vertical
    tab, form feed, carriage return, the four separators 28 to 31, space,
    next line (133) and no-break space (160). *)
Definition isspace (c : ascii) : bool :=
  let n := Z.of_nat (nat_of_ascii c) in
  ((9 <=? n) && (n <=? 13)) || ((28 <=? n) && (n <=? 32))
  || (n =? 133) || (n =? 160).

Fixpoint lstrip (s : string) : string :=
  match s with
  | EmptyString => EmptyString
  | String c s' => if isspace c then lstrip s' else s
  end.

Fixpoint rstrip (s : string) : string :=
  match s with
  | EmptyString => EmptyString
  | String c s' =>
      match rstrip s' with
      | EmptyString => if isspace c then EmptyString else String c EmptyString
      | r => String c r
      end
  end.

(** [s.strip()] *)
Definition strip (s : string) : string := rstrip (lstrip s).

End Py.

(** ** Text files

    [open(path, "r")] reads in text mode with universal newlines: a
    carriage return, with the line feed that may follow it, reaches the
    program as one line feed.  [readlines] then cuts after every line
    feed and keeps it on the line.  [open(path, "w")] truncates, and
    [writelines] writes the lines one after the other, adding nothing
    (the line separator of the platform is taken to be the line feed). *)

Module TextIO.

Definition LF : ascii := "010"%char.
Definition CR : ascii := "013"%char.

Fixpoint universal_newlines (after_cr : bool) (s : string) : string :=
  match s with
  | EmptyString => EmptyString
  | String c s' =>
      if Ascii.eqb c CR then String LF (universal_newlines true s')
      else if Ascii.eqb c LF && after_cr then universal_newlines false s'
      else String c (universal_newlines false s')
  end.

Fixpoint split_keepends (s : string) : list string :=
  match s with
  | EmptyString => []
  | String c s' =>
      if Ascii.eqb c LF then String c EmptyString :: split_keepends s'
      else match split_keepends s' with
           | [] => [String c EmptyString]
           | l :: ls => String c l :: ls
           end
  end.

(** [file.readlines()] on a file opened with mode ["r"] *)
Definition readlines (content : string) : list string :=
  split_keepends (universal_newlines false content).

(** what [file.writelines(lines)] leaves in a file opened with mode ["w"] *)
Definition writelines (lines : list string) : string :=
  fold_right String.append EmptyString lines.

End TextIO.

(** ** The world the script runs in

    The script touches three things: the file [plugin.cfg] of the working
    directory, the [git] executable, and the standard output. *)

Inductive exn : Type :=
| OSError             (* [open] could not open the file *)
| CalledProcessError. (* [git describe] exited with a status other than 0 *)

Record World : Type := mkWorld {
  plugin_cfg : option string; (* contents of the file; [None]: it cannot be opened *)
  describe : option string;   (* standard output of [git describe --tags --abbrev=6],
                                 decoded; [None]: the command fails *)
  stdout : list string        (* what was printed, one entry per [print] *)
}.

Inductive result (A : Type) : Type :=
| Ok (a : A)
| Raise (e : exn).
Arguments Ok {A} a.
Arguments Raise {A} e.

(** A computation reads and changes the world, and returns or raises. *)
Definition M (A : Type) : Type := World -> result A * World.

Definition ret {A : Type} (a : A) : M A := fun w => (Ok a, w).

Definition bind {A B : Type} (m : M A) (k : A -> M B) : M B :=
  fun w =>
    match m w with
    | (Ok a, w') => k a w'
    | (Raise e, w') => (Raise e, w')
    end.

Declare Scope py_scope.
Delimit Scope py_scope with py.
Notation "x <- m ;; k" := (bind m (fun x => k))
  (at level 61, m at next level, right associativity) : py_scope.
Notation "m ;; k" := (bind m (fun _ => k))
  (at level 61, right associativity) : py_scope.

(** [with open("plugin.cfg", "r") as file: lines = file.readlines()] *)
Definition open_r_readlines : M (list string) :=
  fun w =>
    match plugin_cfg w with
    | Some content => (Ok (TextIO.readlines content), w)
    | None => (Raise OSError, w)
    end.

(** [subprocess.check_output(["git", "describe", "--tags", "--abbrev=6"]).decode("utf-8")] *)
Definition check_output_git_describe : M string :=
  fun w =>
    match describe w with
    | Some out => (Ok out, w)
    | None => (Raise CalledProcessError, w)
    end.

(** [print(s)] *)
Definition print (s : string) : M unit :=
  fun w => (Ok tt, mkWorld (plugin_cfg w) (describe w) (stdout w ++ [s])%list).

Fixpoint print_each (l : list string) : M unit :=
  match l with
  | [] => ret tt
  | s :: l' => (print s ;; print_each l')%py
  end.

(** [with open("plugin.cfg", "w") as file: file.writelines(new_lines)] *)
Definition open_w_writelines (new_lines : list string) : M unit :=
  fun w =>
    (Ok tt, mkWorld (Some (TextIO.writelines new_lines)) (describe w) (stdout w)).

(** ** The script *)

(** What [s.replace(c, d)] does to one character, for one-character
    strings [c] and [d]. *)
Definition swap_char (c d a : ascii) : ascii := if Ascii.eqb c a then d else a.

Definition hyphen : string := "-".
Definition plus : string := "+".
Definition dquote : string := String "034"%char EmptyString.
Definition newline : string := String TextIO.LF EmptyString.

(** Lines 12 to 16.  The block rebinds [git_describe] and prints the new
    value when it has rewritten it: the result is the value of
    [git_describe] after the block, with the lines printed by it. *)
Definition normalization_block (git_describe : string) : string * list string :=
  if 2 <=? Py.count git_describe hyphen then
    let first_index := Py.find git_describe hyphen in
    if negb (first_index =? -1) then
      let git_describe :=
        Py.slice git_describe None (Some first_index) ++ hyphen ++
        Py.replace (Py.slice git_describe (Some (first_index + 1)) None) hyphen plus in
      (git_describe, [git_describe])
    else (git_describe, [])
  else (git_describe, []).

Definition normalization (S : string) : string := fst (normalization_block S).

(** Lines 20 and 21: the body of the loop, up to the [append]. *)
Definition rewrite_line (git_describe line : string) : string :=
  if Py.startswith line "version="
  then "version=" ++ dquote ++ git_describe ++ dquote ++ newline
  else line.

(** Lines 18 to 22: [new_lines] starts empty and receives one line per
    line of [lines]. *)
Definition rewrite (lines : list string) (git_describe : string) : list string :=
  fold_left (fun new_lines line => (new_lines ++ [rewrite_line git_describe line])%list)
            lines [].

(** The whole script. *)
Definition main : M unit :=
  (lines <- open_r_readlines ;;
   out <- check_output_git_describe ;;
   let git_describe := Py.strip out in
   print git_describe ;;
   let (git_describe, printed) := normalization_block git_describe in
   print_each printed ;;
   open_w_writelines (rewrite lines git_describe))%py.

(** ** The shape of a list of lines

    The lines [readlines] returns: each one ends with its line feed and
    holds no other, but for the last, which may be a piece of text with no
    line feed at all. *)
Inductive lines_ok : list string -> Prop :=
| lines_ok_nil : lines_ok []
| lines_ok_last (body : string) :
    Py.count body newline = 0 -> body <> EmptyString -> lines_ok [body]
| lines_ok_cons (body : string) (ls : list string) :
    Py.count body newline = 0 -> lines_ok ls ->
    lines_ok ((body ++ newline) :: ls).

(** The carriage return, as a string. *)
Definition carriage_return : string := String TextIO.CR EmptyString.

(** No line holds the character [c]. *)
Definition without (c : string) (ls : list string) : Prop :=
  Forall (fun l => Py.count l c = 0) ls.

(** * Checks on concrete inputs *)

Example count_ex1 : Py.count "v1.2.3-rc1-5-gabcdef" "-" = 3.
Proof. reflexivity. Qed.
Example count_ex2 : Py.count "aaaa" "aa" = 2.
Proof. reflexivity. Qed.
Example count_ex3 : Py.count "abc" EmptyString = 4.
Proof. reflexivity. Qed.
Example find_ex1 : Py.find "v1.2.3-rc1-5-gabcdef" "-" = 6.
Proof. reflexivity. Qed.
Example find_ex2 : Py.find "v1.2.3" "-" = -1.
Proof. reflexivity. Qed.
Example replace_ex1 : Py.replace "rc1-5-gabcdef" "-" "+" = "rc1+5+gabcdef".
Proof. reflexivity. Qed.
Example replace_ex2 : Py.replace "aaaaa" "aa" "b" = "bba".
Proof. reflexivity. Qed.
Example replace_ex3 : Py.replace "abc" EmptyString "+" = "+a+b+c+".
Proof. reflexivity. Qed.
Example slice_ex1 : Py.slice "v1.2.3-5-gabcdef" None (Some 6) = "v1.2.3".
Proof. reflexivity. Qed.
Example slice_ex2 : Py.slice "v1.2.3-5-gabcdef" (Some 7) None = "5-gabcdef".
Proof. reflexivity. Qed.
Example slice_ex3 : Py.slice "abcdef" None (Some (-1)) = "abcde".
Proof. reflexivity. Qed.
Example slice_ex4 : Py.slice "abcdef" (Some 0) None = "abcdef".
Proof. reflexivity. Qed.
Example strip_ex1 : Py.strip (String "009" " v2.0.0-14-gdeadbe" ++ newline)
                    = "v2.0.0-14-gdeadbe".
Proof. reflexivity. Qed.
Example normalization_ex1 : normalization "v1.2.3-5-gabcdef" = "v1.2.3-5+gabcdef".
Proof. reflexivity. Qed.
Example normalization_ex2 : normalization "v1.2.3" = "v1.2.3".
Proof. reflexivity. Qed.
Example normalization_ex3 : normalization "v1.2.3-rc1-5-gabcdef" = "v1.2.3-rc1+5+gabcdef".
Proof. reflexivity. Qed.
Example normalization_ex4 : normalization "--" = "-+".
Proof. reflexivity. Qed.
Example block_ex1 :
  normalization_block "v2.0.0-14-gdeadbe" = ("v2.0.0-14+gdeadbe", ["v2.0.0-14+gdeadbe"]).
Proof. reflexivity. Qed.
Example block_ex2 : normalization_block "v2.0.0" = ("v2.0.0", []).
Proof. reflexivity. Qed.
Example readlines_ex1 :
  TextIO.readlines ("a" ++ newline ++ newline ++ "b") = ["a" ++ newline; newline; "b"].
Proof. reflexivity. Qed.
Example readlines_ex2 :
  TextIO.readlines ("a" ++ String TextIO.CR newline ++ "b" ++ String TextIO.CR "c")
  = ["a" ++ newline; "b" ++ newline; "c"].
Proof. reflexivity. Qed.
Example rewrite_ex1 :
  rewrite ["name=plugin"; "version=1"; " version=2"; "version"; "version=3"] "V"
  = ["name=plugin"; "version=" ++ dquote ++ "V" ++ dquote ++ newline; " version=2";
     "version"; "version=" ++ dquote ++ "V" ++ dquote ++ newline].
Proof. reflexivity. Qed.
Example main_ex1 :
  main (mkWorld (Some ("version=" ++ dquote ++ "old" ++ dquote ++ newline))
                (Some ("v2.0.0" ++ newline)) [])
  = (Ok tt, mkWorld (Some ("version=" ++ dquote ++ "v2.0.0" ++ dquote ++ newline))
                    (Some ("v2.0.0" ++ newline)) ["v2.0.0"]).
Proof. reflexivity. Qed.
Example main_ex2 :
  main (mkWorld (Some ("version=" ++ dquote ++ "old" ++ dquote ++ newline))
                (Some ("v2.0.0-14-gdeadbe" ++ newline)) [])
  = (Ok tt, mkWorld (Some ("version=" ++ dquote ++ "v2.0.0-14+gdeadbe" ++ dquote ++ newline))
                    (Some ("v2.0.0-14-gdeadbe" ++ newline))
                    ["v2.0.0-14-gdeadbe"; "v2.0.0-14+gdeadbe"]).
Proof. reflexivity. Qed.
Example main_ex3 : main (mkWorld None (Some "v2.0.0") []) = (Raise OSError, mkWorld None (Some "v2.0.0") []).
Proof. reflexivity. Qed.

(** * Facts about the methods of [str] *)

Section OneCharacter.

(** The (String c EmptyString) is the one-character string made of [c]. *)
Variable c : ascii.

Lemma prefix_one (a : ascii) (s : string) :
  String.prefix (String c EmptyString) (String a s) = Ascii.eqb c a.
Proof.
  simpl.
  destruct (ascii_dec c a) as [->|Hne].
  - rewrite Ascii.eqb_refl. now destruct s.
  - symmetry. now apply Ascii.eqb_neq.
Qed.

Lemma count_nil : Py.count EmptyString (String c EmptyString) = 0.
Proof. reflexivity. Qed.

Lemma count_cons (a : ascii) (s : string) :
  Py.count (String a s) (String c EmptyString) =
  (if Ascii.eqb c a then 1 else 0) + Py.count s (String c EmptyString).
Proof.
  unfold Py.count. cbn [Py.count_from].
  rewrite prefix_one. now destruct (Ascii.eqb c a).
Qed.

Lemma count_nonneg (s : string) : 0 <= Py.count s (String c EmptyString).
Proof.
  induction s as [|a s IH]; [rewrite count_nil; lia|].
  rewrite count_cons. destruct (Ascii.eqb c a); lia.
Qed.

Lemma count_app (s t : string) :
  Py.count (s ++ t) (String c EmptyString) = Py.count s (String c EmptyString) + Py.count t (String c EmptyString).
Proof.
  induction s as [|a s IH]; cbn [append].
  - rewrite count_nil. lia.
  - rewrite !count_cons, IH. lia.
Qed.

Lemma find_from_cons (i : Z) (a : ascii) (s : string) :
  Py.find_from i (String a s) (String c EmptyString) =
  if Ascii.eqb c a then i else Py.find_from (i + 1) s (String c EmptyString).
Proof. cbn [Py.find_from]. now rewrite prefix_one. Qed.

(** [find] either misses, and then the (String c EmptyString) does not occur, or it cuts
    the string at the first occurrence. *)
Lemma find_from_cases (s : string) (i : Z) :
  (Py.find_from i s (String c EmptyString) = -1 /\ Py.count s (String c EmptyString) = 0) \/
  (exists pre post,
      s = pre ++ String c post /\
      Py.count pre (String c EmptyString) = 0 /\
      Py.find_from i s (String c EmptyString) = i + Py.len pre).
Proof.
  revert i. induction s as [|a s IH]; intro i.
  - left. split; reflexivity.
  - rewrite find_from_cons, count_cons.
    destruct (Ascii.eqb c a) eqn:E.
    + apply Ascii.eqb_eq in E. subst a.
      right. exists EmptyString, s. repeat split.
      unfold Py.len; simpl. lia.
    + destruct (IH (i + 1)) as [[Hf Hc]|(pre & post & Hs & Hc & Hf)].
      * left. split; [exact Hf | lia].
      * right. exists (String a pre), post. repeat split.
        -- simpl. now rewrite Hs.
        -- rewrite count_cons, E. lia.
        -- rewrite Hf. unfold Py.len; simpl String.length. lia.
Qed.

Lemma find_cases (s : string) :
  (Py.find s (String c EmptyString) = -1 /\ Py.count s (String c EmptyString) = 0) \/
  (exists pre post,
      s = pre ++ String c post /\
      Py.count pre (String c EmptyString) = 0 /\
      Py.find s (String c EmptyString) = Py.len pre).
Proof.
  destruct (find_from_cases s 0) as [H|(pre & post & H1 & H2 & H3)].
  - now left.
  - right. exists pre, post. repeat split; trivial.
Qed.

Lemma find_from_app_first (pre post : string) (i : Z) :
  Py.count pre (String c EmptyString) = 0 ->
  Py.find_from i (pre ++ String c post) (String c EmptyString) = i + Py.len pre.
Proof.
  revert i. induction pre as [|a pre IH]; intros i H; cbn [append].
  - rewrite find_from_cons, Ascii.eqb_refl. unfold Py.len; simpl. lia.
  - rewrite count_cons in H. pose proof (count_nonneg pre) as Hp.
    rewrite find_from_cons.
    destruct (Ascii.eqb c a); [lia|].
    rewrite IH by lia. unfold Py.len; simpl String.length. lia.
Qed.

(** Replacing the (String c EmptyString) by another character [d]. *)
Variable d : ascii.

Lemma replace_nil :
  Py.replace EmptyString (String c EmptyString) (String d EmptyString) = EmptyString.
Proof. reflexivity. Qed.

Lemma replace_cons (a : ascii) (s : string) :
  Py.replace (String a s) (String c EmptyString) (String d EmptyString) =
  String (swap_char c d a) (Py.replace s (String c EmptyString) (String d EmptyString)).
Proof.
  unfold Py.replace, swap_char. cbn [Py.replace_from].
  rewrite prefix_one. now destruct (Ascii.eqb c a).
Qed.

Lemma replace_length (s : string) :
  String.length (Py.replace s (String c EmptyString) (String d EmptyString)) = String.length s.
Proof.
  induction s as [|a s IH]; [reflexivity|].
  rewrite replace_cons. simpl. now rewrite IH.
Qed.

Lemma replace_get (s : string) (n : nat) :
  String.get n (Py.replace s (String c EmptyString) (String d EmptyString)) =
  option_map (swap_char c d) (String.get n s).
Proof.
  revert n. induction s as [|a s IH]; intro n; [reflexivity|].
  rewrite replace_cons. destruct n as [|n]; simpl; [reflexivity|apply IH].
Qed.

Lemma replace_absent (s : string) :
  Py.count s (String c EmptyString) = 0 ->
  Py.replace s (String c EmptyString) (String d EmptyString) = s.
Proof.
  induction s as [|a s IH]; intro H; [reflexivity|].
  rewrite replace_cons. rewrite count_cons in H.
  pose proof (count_nonneg s) as Hs. unfold swap_char.
  destruct (Ascii.eqb c a); [lia|]. rewrite IH by lia. reflexivity.
Qed.

Hypothesis c_d : c <> d.

Lemma count_replace_old (s : string) :
  Py.count (Py.replace s (String c EmptyString) (String d EmptyString)) (String c EmptyString) = 0.
Proof.
  induction s as [|a s IH]; [reflexivity|].
  rewrite replace_cons, count_cons, IH. unfold swap_char.
  destruct (Ascii.eqb c a) eqn:E.
  - apply Ascii.eqb_neq in c_d. now rewrite c_d.
  - now rewrite E.
Qed.

End OneCharacter.

Section OneCharacterNew.

Variables c d : ascii.
Hypothesis c_d : c <> d.

Lemma count_replace_new (s : string) :
  Py.count (Py.replace s (String c EmptyString) (String d EmptyString))
           (String d EmptyString) =
  Py.count s (String d EmptyString) + Py.count s (String c EmptyString).
Proof.
  induction s as [|a s IH]; [reflexivity|].
  rewrite replace_cons, !count_cons, IH. unfold swap_char.
  destruct (Ascii.eqb c a) eqn:E.
  - apply Ascii.eqb_eq in E. subst a. rewrite Ascii.eqb_refl.
    assert (Ascii.eqb d c = false) as -> by (apply Ascii.eqb_neq; congruence).
    lia.
  - destruct (Ascii.eqb d a); lia.
Qed.

End OneCharacterNew.

(** ** Slices *)

Lemma substring_all (s : string) : String.substring 0 (String.length s) s = s.
Proof. induction s as [|a s IH]; simpl; [reflexivity|now rewrite IH]. Qed.

Lemma substring_app_left (s t : string) :
  String.substring 0 (String.length s) (s ++ t) = s.
Proof.
  induction s as [|a s IH]; simpl; [now destruct t|now rewrite IH].
Qed.

Lemma substring_app_right (s t : string) (m : nat) :
  String.substring (String.length s) m (s ++ t) = String.substring 0 m t.
Proof. induction s as [|a s IH]; simpl; [reflexivity|exact IH]. Qed.

Lemma length_app (s t : string) :
  String.length (s ++ t) = (String.length s + String.length t)%nat.
Proof. induction s as [|a s IH]; simpl; [reflexivity|now rewrite IH]. Qed.

Lemma bound_inside (n k : nat) : (k <= n)%nat -> Py.bound n (Z.of_nat k) = k.
Proof.
  intro H. unfold Py.bound.
  destruct (Z.of_nat k <? 0) eqn:E; [apply Z.ltb_lt in E; lia|]. lia.
Qed.

Lemma slice_before (s t : string) :
  Py.slice (s ++ t) None (Some (Py.len s)) = s.
Proof.
  unfold Py.slice, Py.len. rewrite bound_inside by (rewrite length_app; lia).
  rewrite Nat.sub_0_r. apply substring_app_left.
Qed.

Lemma slice_after (s t : string) :
  Py.slice (s ++ t) (Some (Py.len s)) None = t.
Proof.
  unfold Py.slice, Py.len. rewrite bound_inside by (rewrite length_app; lia).
  rewrite length_app, substring_app_right.
  replace (String.length s + String.length t - String.length s)%nat
    with (String.length t) by lia.
  apply substring_all.
Qed.

Lemma app_assoc_one (s : string) (a : ascii) (t : string) :
  s ++ String a t = (s ++ String a EmptyString) ++ t.
Proof. induction s as [|b s IH]; simpl; [reflexivity|now rewrite IH]. Qed.

Lemma len_app_one (s : string) (a : ascii) :
  Py.len (s ++ String a EmptyString) = Py.len s + 1.
Proof. unfold Py.len. rewrite length_app. simpl. lia. Qed.

Lemma slice_through_one (s : string) (a : ascii) (t : string) :
  Py.slice (s ++ String a t) None (Some (Py.len s + 1)) = s ++ String a EmptyString.
Proof. rewrite app_assoc_one, <- (len_app_one s a). apply slice_before. Qed.

Lemma slice_past_one (s : string) (a : ascii) (t : string) :
  Py.slice (s ++ String a t) (Some (Py.len s + 1)) None = t.
Proof. rewrite app_assoc_one, <- (len_app_one s a). apply slice_after. Qed.

(** ** Writing lines *)

Lemma append_nil_r (s : string) : s ++ EmptyString = s.
Proof. induction s as [|a s IH]; simpl; [reflexivity|now rewrite IH]. Qed.

Lemma append_assoc (s t u : string) : (s ++ t) ++ u = s ++ t ++ u.
Proof. induction s as [|a s IH]; simpl; [reflexivity|now rewrite IH]. Qed.

Lemma writelines_app (l1 l2 : list string) :
  TextIO.writelines (l1 ++ l2) = TextIO.writelines l1 ++ TextIO.writelines l2.
Proof.
  unfold TextIO.writelines.
  induction l1 as [|x l1 IH]; simpl; [reflexivity|].
  now rewrite IH, append_assoc.
Qed.

Lemma writelines_snoc (l : list string) (x : string) :
  TextIO.writelines (l ++ [x]) = TextIO.writelines l ++ x.
Proof. rewrite writelines_app. simpl. now rewrite append_nil_r. Qed.

(** * The normalization block *)

Lemma first_hyphen (S : string) :
  1 <= Py.count S hyphen ->
  exists pre post,
    S = pre ++ hyphen ++ post /\
    Py.count pre hyphen = 0 /\
    Py.find S hyphen = Py.len pre.
Proof.
  intro H. destruct (find_cases "-"%char S) as [[_ H0]|Hcut].
  - unfold hyphen in H. lia.
  - exact Hcut.
Qed.

Lemma len_nonneg (s : string) : 0 <= Py.len s.
Proof. unfold Py.len. lia. Qed.

Lemma count_cut (pre post : string) :
  Py.count (pre ++ hyphen ++ post) hyphen =
  Py.count pre hyphen + 1 + Py.count post hyphen.
Proof.
  unfold hyphen. rewrite count_app. cbn [append].
  rewrite count_cons, Ascii.eqb_refl. lia.
Qed.

(** With two hyphens or more, the block takes its inner branch. *)
Lemma normalization_block_cut (pre post : string) :
  Py.count pre hyphen = 0 ->
  1 <= Py.count post hyphen ->
  normalization_block (pre ++ hyphen ++ post) =
  (pre ++ hyphen ++ Py.replace post hyphen plus,
   [pre ++ hyphen ++ Py.replace post hyphen plus]).
Proof.
  intros Hpre Hpost. unfold normalization_block.
  assert (Hcount : Py.count (pre ++ hyphen ++ post) hyphen = 1 + Py.count post hyphen).
  { rewrite count_cut. lia. }
  assert (Hfind : Py.find (pre ++ hyphen ++ post) hyphen = Py.len pre).
  { unfold Py.find, hyphen in *. cbn [append].
    rewrite find_from_app_first by exact Hpre. lia. }
  rewrite Hcount, Hfind.
  destruct (2 <=? 1 + Py.count post hyphen) eqn:E2;
    [|apply Z.leb_gt in E2; lia].
  pose proof (len_nonneg pre) as Hlen.
  destruct (Py.len pre =? -1) eqn:E1; [apply Z.eqb_eq in E1; lia|].
  cbn [negb]. rewrite slice_before.
  change (pre ++ hyphen ++ post) with (pre ++ String "-"%char post).
  rewrite slice_past_one. reflexivity.
Qed.

Lemma normalization_few (S : string) :
  Py.count S hyphen < 2 -> normalization_block S = (S, []).
Proof.
  intro H. unfold normalization_block.
  destruct (2 <=? Py.count S hyphen) eqn:E; [apply Z.leb_le in E; lia|].
  reflexivity.
Qed.

Lemma many_hyphens_cut (S : string) :
  2 <= Py.count S hyphen ->
  exists pre post,
    S = pre ++ hyphen ++ post /\
    Py.count pre hyphen = 0 /\
    Py.count post hyphen = Py.count S hyphen - 1 /\
    Py.find S hyphen = Py.len pre.
Proof.
  intro H.
  destruct (first_hyphen S) as (pre & post & HS & Hpre & Hfind); [lia|].
  exists pre, post. repeat split; trivial.
  rewrite HS, count_cut. lia.
Qed.

Lemma normalization_hyphens (S : string) :
  Py.count (normalization S) hyphen <= 1.
Proof.
  destruct (Z.lt_ge_cases (Py.count S hyphen) 2) as [Hlt|Hge].
  - unfold normalization. rewrite normalization_few by exact Hlt. simpl. lia.
  - destruct (many_hyphens_cut S Hge) as (pre & post & HS & Hpre & Hpost & _).
    unfold normalization. rewrite HS, normalization_block_cut by lia.
    cbn [fst]. rewrite count_cut, Hpre.
    unfold hyphen at 1, plus. rewrite count_replace_old by discriminate. lia.
Qed.

(** ** Reading lines *)

Lemma split_keepends_nil (s : string) :
  TextIO.split_keepends s = [] -> s = EmptyString.
Proof.
  destruct s as [|c s]; [reflexivity|]. cbn [TextIO.split_keepends].
  destruct (Ascii.eqb c TextIO.LF); [discriminate|].
  destruct (TextIO.split_keepends s); discriminate.
Qed.

(** Cutting a text into lines and writing the lines gives the text back. *)
Lemma writelines_split_keepends (s : string) :
  TextIO.writelines (TextIO.split_keepends s) = s.
Proof.
  unfold TextIO.writelines.
  induction s as [|c s IH]; [reflexivity|]. cbn [TextIO.split_keepends].
  destruct (Ascii.eqb c TextIO.LF).
  - cbn [fold_right append]. now rewrite IH.
  - destruct (TextIO.split_keepends s) as [|l ls] eqn:E.
    + apply split_keepends_nil in E. now subst s.
    + cbn [fold_right append] in *. now rewrite IH.
Qed.

(** * The rewrite loop *)

Lemma rewrite_loop (git_describe : string) (lines new_lines : list string) :
  fold_left (fun new_lines line => (new_lines ++ [rewrite_line git_describe line])%list)
            lines new_lines =
  (new_lines ++ map (rewrite_line git_describe) lines)%list.
Proof.
  revert new_lines. induction lines as [|line lines IH]; intro new_lines; simpl.
  - now rewrite app_nil_r.
  - rewrite IH, <- app_assoc. reflexivity.
Qed.

(** The loop applies its body to every line, in order. *)
Lemma rewrite_map (lines : list string) (git_describe : string) :
  rewrite lines git_describe = map (rewrite_line git_describe) lines.
Proof. unfold rewrite. now rewrite rewrite_loop. Qed.

Lemma rewrite_length (lines : list string) (git_describe : string) :
  List.length (rewrite lines git_describe) = List.length lines.
Proof. rewrite rewrite_map. apply length_map. Qed.

Lemma rewrite_nth (lines : list string) (git_describe : string) (i : nat) :
  nth_error (rewrite lines git_describe) i =
  option_map (rewrite_line git_describe) (nth_error lines i).
Proof. rewrite rewrite_map. apply nth_error_map. Qed.

Lemma rewrite_app (l1 l2 : list string) (git_describe : string) :
  rewrite (l1 ++ l2) git_describe =
  (rewrite l1 git_describe ++ rewrite l2 git_describe)%list.
Proof. rewrite !rewrite_map. apply map_app. Qed.

Lemma rewrite_line_other (git_describe line : string) :
  Py.startswith line "version=" = false -> rewrite_line git_describe line = line.
Proof. intro H. unfold rewrite_line. now rewrite H. Qed.

Lemma rewrite_line_version (git_describe line : string) :
  Py.startswith line "version=" = true ->
  rewrite_line git_describe line =
  "version=" ++ dquote ++ git_describe ++ dquote ++ newline.
Proof. intro H. unfold rewrite_line. now rewrite H. Qed.

(** * Runs of the script *)

Lemma print_each_run (l : list string) (w : World) :
  print_each l w = (Ok tt, mkWorld (plugin_cfg w) (describe w) (stdout w ++ l)%list).
Proof.
  revert w. induction l as [|s l IH]; intro w; cbn [print_each].
  - unfold ret. rewrite app_nil_r. now destruct w.
  - unfold bind, print. cbv beta iota. rewrite IH.
    cbn [plugin_cfg describe stdout]. now rewrite <- app_assoc.
Qed.

(** When the file can be read and git answers, the script runs to its end. *)
Lemma main_ok (w : World) (content out : string) :
  plugin_cfg w = Some content ->
  describe w = Some out ->
  main w =
  (Ok tt,
   mkWorld
     (Some (TextIO.writelines
              (rewrite (TextIO.readlines content) (normalization (Py.strip out)))))
     (describe w)
     (stdout w ++ Py.strip out :: snd (normalization_block (Py.strip out)))%list).
Proof.
  intros Hf Hd. unfold main, normalization.
  unfold bind, open_r_readlines, check_output_git_describe. rewrite Hf, Hd.
  unfold print. cbv beta iota zeta.
  destruct (normalization_block (Py.strip out)) as [g printed].
  rewrite print_each_run.
  unfold open_w_writelines. cbn [plugin_cfg describe stdout snd fst].
  now rewrite Hd, <- app_assoc.
Qed.

(** When git fails, the script stops there. *)
Lemma main_describe_fails (w : World) (content : string) :
  plugin_cfg w = Some content ->
  describe w = None ->
  main w = (Raise CalledProcessError, w).
Proof.
  intros Hf Hd. unfold main, bind, open_r_readlines, check_output_git_describe.
  now rewrite Hf, Hd.
Qed.

(** When the file cannot be opened, the script stops before it calls git. *)
Lemma main_open_fails (w : World) :
  plugin_cfg w = None ->
  main w = (Raise OSError, w).
Proof.
  intro Hf. unfold main, bind, open_r_readlines. now rewrite Hf.
Qed.

(** * The properties of the normalization *)

(** C1.  When [S] holds two hyphens or more, the normalization keeps [S] up
    to and including its first hyphen and appends the rest of [S] with every
    hyphen turned into a plus: character by character the new rest is the old
    one with [-] swapped for [+].  The first hyphen stays the first one, so the
    part of the result after it is that new rest; it holds no hyphen, and
    it holds as many more pluses than the old rest as [S] had hyphens, less
    one. *)
Theorem normalization_many_hyphens (S : string) :
  2 <= Py.count S hyphen ->
  let i := Py.find S hyphen in
  let rest := Py.slice S (Some (i + 1)) None in
  let rest' := Py.replace rest hyphen plus in
  normalization S = Py.slice S None (Some (i + 1)) ++ rest' /\
  (forall n : nat,
      String.get n rest' =
      option_map (swap_char "-" "+") (String.get n rest)) /\
  Py.find (normalization S) hyphen = i /\
  Py.slice (normalization S) (Some (i + 1)) None = rest' /\
  Py.count rest' hyphen = 0 /\
  Py.count rest' plus = Py.count rest plus + (Py.count S hyphen - 1).
Proof.
  intro H.
  destruct (many_hyphens_cut S H) as (pre & post & HS & Hpre & Hpost & Hfind).
  cbv zeta. rewrite Hfind.
  assert (Hnorm : normalization S = pre ++ String "-"%char (Py.replace post hyphen plus)).
  { unfold normalization. rewrite HS, normalization_block_cut by lia.
    reflexivity. }
  assert (Hrest : Py.slice S (Some (Py.len pre + 1)) None = post).
  { rewrite HS. apply (slice_past_one pre "-"%char post). }
  assert (Hhead : Py.slice S None (Some (Py.len pre + 1)) = pre ++ hyphen).
  { rewrite HS. apply (slice_through_one pre "-"%char post). }
  rewrite Hnorm, Hrest, Hhead, slice_past_one.
  repeat split.
  - apply app_assoc_one.
  - intro n. apply replace_get.
  - unfold Py.find, hyphen. rewrite find_from_app_first by exact Hpre. lia.
  - unfold hyphen, plus. apply count_replace_old. discriminate.
  - unfold hyphen at 1, plus. rewrite count_replace_new by discriminate.
    fold hyphen plus. lia.
Qed.

Lemma normalization_many_hyphens_witness :
  2 <= Py.count "v1.2.3-rc1-5-gabcdef" hyphen /\
  normalization "v1.2.3-rc1-5-gabcdef" = "v1.2.3-" ++ "rc1+5+gabcdef".
Proof.
  assert (H : 2 <= Py.count "v1.2.3-rc1-5-gabcdef" hyphen)
    by (vm_compute; discriminate).
  split; [exact H|].
  exact (proj1 (normalization_many_hyphens "v1.2.3-rc1-5-gabcdef" H)).
Defined.

(** C2.  A string with fewer than two hyphens is returned as it is. *)
Theorem normalization_few_hyphens (S : string) :
  Py.count S hyphen < 2 -> normalization S = S.
Proof.
  intro H. unfold normalization. now rewrite normalization_few.
Qed.

Lemma normalization_few_hyphens_witness :
  Py.count "v1.2.3-rc1" hyphen < 2 /\ normalization "v1.2.3-rc1" = "v1.2.3-rc1".
Proof.
  assert (H : Py.count "v1.2.3-rc1" hyphen < 2) by reflexivity.
  split; [exact H|].
  exact (normalization_few_hyphens "v1.2.3-rc1" H).
Defined.

(** C3.  The normalization is idempotent: normalizing its result changes
    nothing; and a string with one hyphen at most is left as it is. *)
Theorem normalization_idempotent (S : string) :
  normalization (normalization S) = normalization S /\
  (Py.count S hyphen <= 1 -> normalization S = S).
Proof.
  split.
  - pose proof (normalization_hyphens S) as H.
    unfold normalization at 1. rewrite normalization_few by lia. reflexivity.
  - intro H. unfold normalization. rewrite normalization_few by lia.
    reflexivity.
Qed.

Lemma normalization_idempotent_witness :
  normalization (normalization "v2.0.0-beta-14-gdeadbe")
  = normalization "v2.0.0-beta-14-gdeadbe" /\
  Py.count "v2.0.0-beta+14+gdeadbe" hyphen <= 1 /\
  normalization "v2.0.0-beta+14+gdeadbe" = "v2.0.0-beta+14+gdeadbe".
Proof.
  assert (H : Py.count "v2.0.0-beta+14+gdeadbe" hyphen <= 1)
    by (vm_compute; discriminate).
  split; [exact (proj1 (normalization_idempotent "v2.0.0-beta-14-gdeadbe"))|].
  split; [exact H|].
  exact (proj2 (normalization_idempotent "v2.0.0-beta+14+gdeadbe") H).
Defined.

(** C10.  With two hyphens or more, [find] does not answer [-1]: the test
    [first_index != -1] holds, the block rebinds [git_describe] to the
    rewritten string and prints it.  The branch that leaves the string as it
    is, silently, is not taken. *)
Theorem first_index_guard_holds (S : string) :
  2 <= Py.count S hyphen ->
  Py.find S hyphen <> -1 /\
  negb (Py.find S hyphen =? -1) = true /\
  normalization_block S =
  (Py.slice S None (Some (Py.find S hyphen)) ++ hyphen ++
   Py.replace (Py.slice S (Some (Py.find S hyphen + 1)) None) hyphen plus,
   [Py.slice S None (Some (Py.find S hyphen)) ++ hyphen ++
    Py.replace (Py.slice S (Some (Py.find S hyphen + 1)) None) hyphen plus]) /\
  normalization_block S <> (S, []).
Proof.
  intro H.
  destruct (many_hyphens_cut S H) as (pre & post & HS & Hpre & Hpost & Hfind).
  pose proof (len_nonneg pre) as Hlen.
  assert (Hne : Py.find S hyphen <> -1) by lia.
  split; [exact Hne|].
  split; [apply Z.eqb_neq in Hne; now rewrite Hne|].
  assert (Hblock : normalization_block S =
    (pre ++ hyphen ++ Py.replace post hyphen plus,
     [pre ++ hyphen ++ Py.replace post hyphen plus])).
  { rewrite HS at 1. apply normalization_block_cut; lia. }
  split.
  - assert (Hhead : Py.slice S None (Some (Py.len pre)) = pre).
    { rewrite HS. apply slice_before. }
    assert (Hrest : Py.slice S (Some (Py.len pre + 1)) None = post).
    { rewrite HS. apply (slice_past_one pre "-"%char post). }
    now rewrite Hblock, Hfind, Hhead, Hrest.
  - rewrite Hblock. intro Heq. discriminate Heq.
Qed.

Lemma first_index_guard_holds_witness :
  2 <= Py.count "v1.2.3-5-gabcdef" hyphen /\
  Py.find "v1.2.3-5-gabcdef" hyphen <> -1 /\
  normalization_block "v1.2.3-5-gabcdef" = ("v1.2.3-5+gabcdef", ["v1.2.3-5+gabcdef"]).
Proof.
  assert (H : 2 <= Py.count "v1.2.3-5-gabcdef" hyphen)
    by (vm_compute; discriminate).
  split; [exact H|].
  split; [exact (proj1 (first_index_guard_holds "v1.2.3-5-gabcdef" H))|].
  exact (proj1 (proj2 (proj2 (first_index_guard_holds "v1.2.3-5-gabcdef" H)))).
Defined.

(** * The properties of the rewrite *)

(** C4.  The rewrite returns as many lines as it received, in the same
    order; a line that does not begin with [version=] is returned as it is,
    its terminator included; a line that comes back changed began with
    [version=]. *)
Theorem rewrite_frame (lines : list string) (git_describe : string) :
  List.length (rewrite lines git_describe) = List.length lines /\
  (forall (i : nat) (line : string),
      nth_error lines i = Some line ->
      Py.startswith line "version=" = false ->
      nth_error (rewrite lines git_describe) i = Some line) /\
  (forall (i : nat) (line line' : string),
      nth_error lines i = Some line ->
      nth_error (rewrite lines git_describe) i = Some line' ->
      line' <> line ->
      Py.startswith line "version=" = true).
Proof.
  split; [apply rewrite_length|]. split.
  - intros i line Hi Hp. rewrite rewrite_nth, Hi. cbn [option_map].
    now rewrite rewrite_line_other.
  - intros i line line' Hi Hi' Hne. rewrite rewrite_nth, Hi in Hi'.
    cbn [option_map] in Hi'. injection Hi' as Hi'.
    destruct (Py.startswith line "version=") eqn:E; [reflexivity|].
    rewrite rewrite_line_other in Hi' by exact E. congruence.
Qed.

Lemma rewrite_frame_witness :
  nth_error (rewrite ["name=plugin"; "version=1"; "author=x"] "v2.0.0") 2
  = Some "author=x".
Proof.
  apply (proj1 (proj2 (rewrite_frame ["name=plugin"; "version=1"; "author=x"]
                                     "v2.0.0")) 2%nat "author=x");
    reflexivity.
Defined.

(** C5.  Every line that begins with [version=], the first one and the
    others alike, is replaced by the line [version=], double quote, the
    version, double quote, ended by a line feed. *)
Theorem rewrite_version_lines
  (lines : list string) (git_describe : string) (i : nat) (line : string) :
  nth_error lines i = Some line ->
  Py.startswith line "version=" = true ->
  nth_error (rewrite lines git_describe) i =
  Some ("version=" ++ dquote ++ git_describe ++ dquote ++ newline).
Proof.
  intros Hi Hp. rewrite rewrite_nth, Hi. cbn [option_map].
  now rewrite rewrite_line_version.
Qed.

Lemma rewrite_version_lines_witness :
  nth_error (rewrite ["version=1"; "name=plugin"; "version=2"] "v2.0.0") 2
  = Some ("version=" ++ dquote ++ "v2.0.0" ++ dquote ++ newline).
Proof.
  apply (rewrite_version_lines ["version=1"; "name=plugin"; "version=2"]
                               "v2.0.0" 2%nat "version=2");
    reflexivity.
Defined.

(** C6.  When no line begins with [version=], the rewrite returns the
    lines it received; and the script, given a file it can read and a
    description, then runs to its end without raising and writes those
    lines back. *)
Theorem rewrite_no_version_line :
  (forall (lines : list string) (git_describe : string),
      (forall line, In line lines -> Py.startswith line "version=" = false) ->
      rewrite lines git_describe = lines) /\
  (forall (w : World) (content out : string),
      plugin_cfg w = Some content ->
      describe w = Some out ->
      (forall line, In line (TextIO.readlines content) ->
                    Py.startswith line "version=" = false) ->
      fst (main w) = Ok tt /\
      plugin_cfg (snd (main w)) =
      Some (TextIO.writelines (TextIO.readlines content))).
Proof.
  assert (Hpure : forall (lines : list string) (git_describe : string),
      (forall line, In line lines -> Py.startswith line "version=" = false) ->
      rewrite lines git_describe = lines).
  { intros lines g H. rewrite rewrite_map.
    induction lines as [|line lines IH]; [reflexivity|]. cbn [map].
    rewrite rewrite_line_other by (apply H; now left).
    rewrite IH; [reflexivity|]. intros l Hl. apply H. now right. }
  split; [exact Hpure|].
  intros w content out Hf Hd H.
  rewrite (main_ok w content out Hf Hd). cbn [fst snd plugin_cfg].
  now rewrite Hpure.
Qed.

Lemma rewrite_no_version_line_witness :
  rewrite ["name=plugin"; " version=1"; "author=x"] "v2.0.0"
  = ["name=plugin"; " version=1"; "author=x"].
Proof.
  apply (proj1 rewrite_no_version_line).
  intros line [<-|[<-|[<-|[]]]]; reflexivity.
Defined.

(** C9.  A replaced line ends with a line feed, whatever ended the line it
    replaces.  So when the last line of the file begins with [version=] and
    has no line feed at its end, the file the script writes ends with a line
    feed, and the last line has changed. *)
Theorem replaced_line_ends_with_newline :
  (forall (lines : list string) (git_describe : string) (i : nat) (line : string),
      nth_error lines i = Some line ->
      Py.startswith line "version=" = true ->
      nth_error (rewrite lines git_describe) i =
      Some (("version=" ++ dquote ++ git_describe ++ dquote) ++ newline)) /\
  (forall (w : World) (content out : string) (ls : list string) (last : string),
      plugin_cfg w = Some content ->
      describe w = Some out ->
      TextIO.readlines content = (ls ++ [last])%list ->
      Py.startswith last "version=" = true ->
      (forall body, last <> body ++ newline) ->
      plugin_cfg (snd (main w)) =
      Some ((TextIO.writelines (rewrite ls (normalization (Py.strip out))) ++
             "version=" ++ dquote ++ normalization (Py.strip out) ++ dquote)
            ++ newline) /\
      rewrite_line (normalization (Py.strip out)) last <> last).
Proof.
  assert (Hshape : forall g : string,
    "version=" ++ dquote ++ g ++ dquote ++ newline =
    ("version=" ++ dquote ++ g ++ dquote) ++ newline).
  { intro g. cbn [append dquote]. do 9 f_equal.
    apply (app_assoc_one g "034"%char newline). }
  split.
  - intros lines g i line Hi Hp. rewrite rewrite_nth, Hi. cbn [option_map].
    now rewrite rewrite_line_version, Hshape.
  - intros w content out ls last Hf Hd Hls Hp Hlast. split.
    + rewrite (main_ok w content out Hf Hd). cbn [snd plugin_cfg].
      rewrite Hls, rewrite_app, writelines_app, (rewrite_map [last]).
      cbn [map].
      rewrite rewrite_line_version by exact Hp.
      unfold TextIO.writelines at 2. cbn [fold_right].
      now rewrite append_nil_r, Hshape, !append_assoc.
    + rewrite rewrite_line_version, Hshape by exact Hp.
      intro Heq. exact (Hlast _ (eq_sym Heq)).
Qed.

Lemma replaced_line_ends_with_newline_witness :
  plugin_cfg
    (snd (main (mkWorld (Some ("name=plugin" ++ newline ++ "version=1"))
                        (Some ("v2.0.0" ++ newline)) [])))
  = Some ("name=plugin" ++ newline ++
          "version=" ++ dquote ++ "v2.0.0" ++ dquote ++ newline).
Proof.
  refine (proj1 (proj2 replaced_line_ends_with_newline
                   (mkWorld (Some ("name=plugin" ++ newline ++ "version=1"))
                            (Some ("v2.0.0" ++ newline)) [])
                   ("name=plugin" ++ newline ++ "version=1")
                   ("v2.0.0" ++ newline)
                   ["name=plugin" ++ newline] "version=1"
                   eq_refl eq_refl eq_refl eq_refl _)).
  intro body.
  repeat (destruct body as [|? body]; cbn [append];
          [discriminate | intro H; injection H as _ H; revert H]).
  destruct body; discriminate.
Defined.

(** * The script as a whole *)

(** C7.  When [git describe] fails, the script raises and writes nothing:
    the file, and the whole world with it, is as it was.  The exception is
    the one of the failed command whenever the file could be read, that is
    whenever the command was run at all. *)
Theorem describe_failure_aborts (w : World) :
  describe w = None ->
  (exists e : exn, fst (main w) = Raise e) /\
  plugin_cfg (snd (main w)) = plugin_cfg w /\
  snd (main w) = w /\
  (forall content : string,
      plugin_cfg w = Some content ->
      main w = (Raise CalledProcessError, w)).
Proof.
  intro Hd. destruct (plugin_cfg w) as [content|] eqn:Hf.
  - rewrite (main_describe_fails w content Hf Hd). cbn [fst snd].
    repeat split; trivial. now exists CalledProcessError.
  - rewrite (main_open_fails w Hf). cbn [fst snd].
    repeat split; trivial; [now exists OSError|discriminate].
Qed.

Lemma describe_failure_aborts_witness :
  main (mkWorld (Some ("version=1" ++ newline)) None [])
  = (Raise CalledProcessError, mkWorld (Some ("version=1" ++ newline)) None []).
Proof.
  exact (proj2 (proj2 (proj2
           (describe_failure_aborts
              (mkWorld (Some ("version=1" ++ newline)) None []) eq_refl)))
           ("version=1" ++ newline) eq_refl).
Defined.

(** C8.  The description [v2.0.0-beta-14-gdeadbe] is normalized to
    [v2.0.0-beta+14+gdeadbe].  When git answers that description, the script
    runs to its end, prints both strings, and writes the rewritten lines, in
    which every line that began with [version=] is the line
    [version=], double quote, [v2.0.0-beta+14+gdeadbe], double quote. *)
Theorem end_to_end_beta :
  normalization "v2.0.0-beta-14-gdeadbe" = "v2.0.0-beta+14+gdeadbe" /\
  (forall (w : World) (content out : string),
      plugin_cfg w = Some content ->
      describe w = Some out ->
      Py.strip out = "v2.0.0-beta-14-gdeadbe" ->
      main w =
      (Ok tt,
       mkWorld
         (Some (TextIO.writelines
                  (rewrite (TextIO.readlines content) "v2.0.0-beta+14+gdeadbe")))
         (describe w)
         (stdout w ++ ["v2.0.0-beta-14-gdeadbe"; "v2.0.0-beta+14+gdeadbe"])%list) /\
      (forall (i : nat) (line : string),
          nth_error (TextIO.readlines content) i = Some line ->
          Py.startswith line "version=" = true ->
          nth_error (rewrite (TextIO.readlines content) "v2.0.0-beta+14+gdeadbe") i
          = Some ("version=" ++ dquote ++ "v2.0.0-beta+14+gdeadbe" ++ dquote
                  ++ newline))).
Proof.
  split; [reflexivity|].
  intros w content out Hf Hd Hs. split.
  - rewrite (main_ok w content out Hf Hd), Hs. reflexivity.
  - intros i line Hi Hp. rewrite rewrite_nth, Hi. cbn [option_map].
    now rewrite rewrite_line_version.
Qed.

Lemma end_to_end_beta_witness :
  main (mkWorld (Some ("name=plugin" ++ newline ++
                       "version=" ++ dquote ++ "old" ++ dquote ++ newline ++
                       "author=x" ++ newline))
                (Some ("v2.0.0-beta-14-gdeadbe" ++ newline)) [])
  = (Ok tt,
     mkWorld (Some ("name=plugin" ++ newline ++
                    "version=" ++ dquote ++ "v2.0.0-beta+14+gdeadbe" ++ dquote
                    ++ newline ++
                    "author=x" ++ newline))
             (Some ("v2.0.0-beta-14-gdeadbe" ++ newline))
             ["v2.0.0-beta-14-gdeadbe"; "v2.0.0-beta+14+gdeadbe"]).
Proof.
  exact (proj1 (proj2 end_to_end_beta
           (mkWorld (Some ("name=plugin" ++ newline ++
                           "version=" ++ dquote ++ "old" ++ dquote ++ newline ++
                           "author=x" ++ newline))
                    (Some ("v2.0.0-beta-14-gdeadbe" ++ newline)) [])
           _ _ eq_refl eq_refl eq_refl)).
Defined.

(** * More on the normalization *)

Lemma normalization_changes (S : string) :
  2 <= Py.count S hyphen -> normalization S <> S.
Proof.
  intros H Heq. pose proof (normalization_hyphens S) as Hle.
  rewrite Heq in Hle. lia.
Qed.

Lemma normalization_block_printed (S : string) :
  snd (normalization_block S) =
  if 2 <=? Py.count S hyphen then [normalization S] else [].
Proof.
  destruct (2 <=? Py.count S hyphen) eqn:E.
  - apply Z.leb_le in E.
    destruct (many_hyphens_cut S E) as (pre & post & HS & Hpre & Hpost & _).
    unfold normalization. rewrite HS, normalization_block_cut by lia.
    reflexivity.
  - apply Z.leb_gt in E. now rewrite normalization_few.
Qed.

(** X1.  The normalization changes a string exactly when the string holds
    two hyphens or more. *)
Theorem normalization_fixed_iff (S : string) :
  normalization S = S <-> Py.count S hyphen < 2.
Proof.
  split.
  - intro Heq. destruct (Z.lt_ge_cases (Py.count S hyphen) 2) as [Hlt|Hge];
      [exact Hlt|]. now apply normalization_changes in Hge.
  - intro H. unfold normalization. now rewrite normalization_few.
Qed.

Lemma get_cut_replace (pre post : string) (n : nat) :
  String.get n (pre ++ String "-"%char (Py.replace post hyphen plus)) =
  String.get n (pre ++ String "-"%char post) \/
  (String.get n (pre ++ String "-"%char post) = Some "-"%char /\
   String.get n (pre ++ String "-"%char (Py.replace post hyphen plus)) = Some "+"%char).
Proof.
  revert n. induction pre as [|a pre IH]; intro n; cbn [append].
  - destruct n as [|n]; [now left|]. cbn [String.get].
    unfold hyphen, plus. rewrite replace_get.
    destruct (String.get n post) as [b|]; cbn [option_map]; [|now left].
    unfold swap_char. destruct (Ascii.eqb "-" b) eqn:E; [|now left].
    apply Ascii.eqb_eq in E. subst b. now right.
  - destruct n as [|n]; [now left|]. cbn [String.get]. apply IH.
Qed.

(** X2.  The normalization keeps the length of the string, and at every
    index it keeps the character, or it has put a plus where a hyphen was. *)
Theorem normalization_characters (S : string) :
  String.length (normalization S) = String.length S /\
  (forall n : nat,
      String.get n (normalization S) = String.get n S \/
      (String.get n S = Some "-"%char /\
       String.get n (normalization S) = Some "+"%char)).
Proof.
  destruct (Z.lt_ge_cases (Py.count S hyphen) 2) as [Hlt|Hge].
  - unfold normalization. rewrite normalization_few by exact Hlt.
    split; [reflexivity|]. intro n. now left.
  - destruct (many_hyphens_cut S Hge) as (pre & post & HS & Hpre & Hpost & _).
    assert (Hnorm : normalization S =
                    pre ++ String "-"%char (Py.replace post hyphen plus)).
    { unfold normalization. rewrite HS, normalization_block_cut by lia.
      reflexivity. }
    rewrite Hnorm.
    replace S with (pre ++ String "-"%char post) by (symmetry; exact HS).
    split.
    + rewrite !length_app. cbn [String.length].
      unfold hyphen, plus. now rewrite replace_length.
    + intro n. apply get_cut_replace.
Qed.

Lemma count_replace_other (c d e : ascii) (s : string) :
  e <> c -> e <> d ->
  Py.count (Py.replace s (String c EmptyString) (String d EmptyString))
           (String e EmptyString) =
  Py.count s (String e EmptyString).
Proof.
  intros Hc Hd. induction s as [|a s IH]; [reflexivity|].
  rewrite replace_cons, !count_cons, IH. unfold swap_char.
  destruct (Ascii.eqb c a) eqn:E; [|reflexivity].
  apply Ascii.eqb_eq in E. subst a.
  apply Ascii.eqb_neq in Hc, Hd. now rewrite Hc, Hd.
Qed.

(** A character that is neither the hyphen nor the plus occurs in the
    result as many times as in the string. *)
Lemma normalization_other_char (e : ascii) (S : string) :
  e <> "-"%char -> e <> "+"%char ->
  Py.count (normalization S) (String e EmptyString) =
  Py.count S (String e EmptyString).
Proof.
  intros Hh Hp.
  destruct (Z.lt_ge_cases (Py.count S hyphen) 2) as [Hlt|Hge].
  - unfold normalization. now rewrite normalization_few.
  - destruct (many_hyphens_cut S Hge) as (pre & post & HS & Hpre & Hpost & _).
    unfold normalization. rewrite HS at 2.
    rewrite HS, normalization_block_cut by lia. cbn [fst].
    unfold hyphen, plus. rewrite !count_app. cbn [append].
    rewrite !count_cons, count_replace_other by assumption. reflexivity.
Qed.

(** X3.  The result of the normalization holds one hyphen when the string
    held one or more, and none when it held none; hyphens and pluses taken
    together are as many as before, and every other character occurs as
    many times as before. *)
Theorem normalization_counts (S : string) :
  Py.count (normalization S) hyphen = Z.min (Py.count S hyphen) 1 /\
  Py.count (normalization S) hyphen + Py.count (normalization S) plus =
  Py.count S hyphen + Py.count S plus /\
  (forall e : ascii,
      e <> "-"%char -> e <> "+"%char ->
      Py.count (normalization S) (String e EmptyString) =
      Py.count S (String e EmptyString)).
Proof.
  assert (Hother : forall e : ascii,
      e <> "-"%char -> e <> "+"%char ->
      Py.count (normalization S) (String e EmptyString) =
      Py.count S (String e EmptyString))
    by (intros e; apply normalization_other_char).
  rewrite <- and_assoc. split; [|exact Hother]. clear Hother.
  destruct (Z.lt_ge_cases (Py.count S hyphen) 2) as [Hlt|Hge].
  - unfold normalization. rewrite normalization_few by exact Hlt. cbn [fst].
    pose proof (count_nonneg "-"%char S) as H0. fold hyphen in H0.
    split; lia.
  - destruct (many_hyphens_cut S Hge) as (pre & post & HS & Hpre & Hpost & _).
    assert (Hnorm : normalization S =
                    pre ++ String "-"%char (Py.replace post hyphen plus)).
    { unfold normalization. rewrite HS, normalization_block_cut by lia.
      reflexivity. }
    assert (Hplus : Py.count S plus = Py.count pre plus + Py.count post plus).
    { rewrite HS. unfold plus, hyphen. rewrite count_app. cbn [append].
      rewrite count_cons. cbn [Ascii.eqb Bool.eqb]. lia. }
    rewrite Hnorm. unfold hyphen, plus in *.
    rewrite !count_app, !count_cons, Hpre.
    rewrite count_replace_old by discriminate.
    rewrite count_replace_new by discriminate.
    cbn [Ascii.eqb Bool.eqb]. split; lia.
Qed.

Lemma normalization_counts_witness :
  Py.count (normalization "v1.0-rc.1-5-gabcdef") "." = Py.count "v1.0-rc.1-5-gabcdef" ".".
Proof.
  apply (proj2 (proj2 (normalization_counts "v1.0-rc.1-5-gabcdef")) "."%char);
    discriminate.
Defined.

Lemma normalization_fixed_iff_witness :
  (normalization "v1.2.3-rc1" = "v1.2.3-rc1" -> Py.count "v1.2.3-rc1" hyphen < 2) /\
  normalization "v1.2.3-rc1" = "v1.2.3-rc1".
Proof.
  split.
  - exact (proj1 (normalization_fixed_iff "v1.2.3-rc1")).
  - exact (proj2 (normalization_fixed_iff "v1.2.3-rc1") eq_refl).
Defined.

(** * More on the rewrite *)

Lemma version_line_startswith (git_describe : string) :
  Py.startswith ("version=" ++ dquote ++ git_describe ++ dquote ++ newline)
                "version=" = true.
Proof. reflexivity. Qed.

Lemma rewrite_line_startswith (git_describe line : string) :
  Py.startswith (rewrite_line git_describe line) "version=" =
  Py.startswith line "version=".
Proof.
  unfold rewrite_line. destruct (Py.startswith line "version=") eqn:E.
  - apply version_line_startswith.
  - exact E.
Qed.

Lemma rewrite_line_twice (v v' line : string) :
  rewrite_line v' (rewrite_line v line) = rewrite_line v' line.
Proof.
  unfold rewrite_line at 1 3. rewrite rewrite_line_startswith.
  destruct (Py.startswith line "version=") eqn:E; [reflexivity|].
  now apply rewrite_line_other.
Qed.

(** X4.  Stamping lines that were stamped before gives what stamping the
    first lines gives: the version written last wins, whatever was written
    before, and the lines that begin with [version=] are the same ones
    after the rewrite as before it. *)
Theorem rewrite_restamp (lines : list string) (v v' : string) :
  rewrite (rewrite lines v) v' = rewrite lines v' /\
  map (fun line => Py.startswith line "version=") (rewrite lines v) =
  map (fun line => Py.startswith line "version=") lines.
Proof.
  rewrite !rewrite_map, !map_map. split.
  - apply map_ext. intro line. apply rewrite_line_twice.
  - apply map_ext. intro line. apply rewrite_line_startswith.
Qed.

(** * The description read from git *)

Lemma rstrip_app_space (c : ascii) (s : string) :
  Py.isspace c = true ->
  Py.rstrip (s ++ String c EmptyString) = Py.rstrip s.
Proof.
  intro Hc. induction s as [|a s IH]; cbn [append Py.rstrip].
  - now rewrite Hc.
  - now rewrite IH.
Qed.

Lemma lstrip_app_space (c : ascii) (s : string) :
  Py.isspace c = true ->
  (Py.lstrip (s ++ String c EmptyString) = EmptyString /\
   Py.lstrip s = EmptyString) \/
  Py.lstrip (s ++ String c EmptyString) = Py.lstrip s ++ String c EmptyString.
Proof.
  intro Hc. induction s as [|a s IH]; cbn [append Py.lstrip].
  - left. now rewrite Hc.
  - destruct (Py.isspace a); [exact IH|]. now right.
Qed.

Lemma strip_app_space (c : ascii) (s : string) :
  Py.isspace c = true ->
  Py.strip (s ++ String c EmptyString) = Py.strip s.
Proof.
  intro Hc. unfold Py.strip.
  destruct (lstrip_app_space c s Hc) as [[H1 H2]|H].
  - now rewrite H1, H2.
  - rewrite H. now apply rstrip_app_space.
Qed.

Lemma strip_cons_space (c : ascii) (s : string) :
  Py.isspace c = true -> Py.strip (String c s) = Py.strip s.
Proof. intro Hc. unfold Py.strip. cbn [Py.lstrip]. now rewrite Hc. Qed.

Lemma main_describe_only_stripped (f : option string) (out out' : string)
      (so : list string) :
  Py.strip out = Py.strip out' ->
  fst (main (mkWorld f (Some out) so)) = fst (main (mkWorld f (Some out') so)) /\
  plugin_cfg (snd (main (mkWorld f (Some out) so))) =
  plugin_cfg (snd (main (mkWorld f (Some out') so))) /\
  stdout (snd (main (mkWorld f (Some out) so))) =
  stdout (snd (main (mkWorld f (Some out') so))).
Proof.
  intro H. destruct f as [content|].
  - rewrite (main_ok (mkWorld (Some content) (Some out) so) content out eq_refl eq_refl).
    rewrite (main_ok (mkWorld (Some content) (Some out') so) content out' eq_refl eq_refl).
    cbn [fst snd plugin_cfg stdout]. now rewrite H.
  - rewrite !main_open_fails by reflexivity. now cbn.
Qed.

(** X5.  A white space character at the end of what git prints, such as the
    line feed that ends its output, or at its start, changes nothing: the
    script returns the same, writes the same file and prints the same. *)
Theorem describe_surrounding_space
  (c : ascii) (f : option string) (out : string) (so : list string) :
  Py.isspace c = true ->
  (fst (main (mkWorld f (Some (out ++ String c EmptyString)) so)) =
   fst (main (mkWorld f (Some out) so)) /\
   plugin_cfg (snd (main (mkWorld f (Some (out ++ String c EmptyString)) so))) =
   plugin_cfg (snd (main (mkWorld f (Some out) so))) /\
   stdout (snd (main (mkWorld f (Some (out ++ String c EmptyString)) so))) =
   stdout (snd (main (mkWorld f (Some out) so)))) /\
  (fst (main (mkWorld f (Some (String c out)) so)) =
   fst (main (mkWorld f (Some out) so)) /\
   plugin_cfg (snd (main (mkWorld f (Some (String c out)) so))) =
   plugin_cfg (snd (main (mkWorld f (Some out) so))) /\
   stdout (snd (main (mkWorld f (Some (String c out)) so))) =
   stdout (snd (main (mkWorld f (Some out) so)))).
Proof.
  intro Hc. split; apply main_describe_only_stripped.
  - now apply strip_app_space.
  - now apply strip_cons_space.
Qed.

Lemma describe_surrounding_space_witness :
  plugin_cfg (snd (main (mkWorld (Some ("version=1" ++ newline))
                                 (Some ("v2.0.0" ++ newline)) [])))
  = plugin_cfg (snd (main (mkWorld (Some ("version=1" ++ newline))
                                   (Some "v2.0.0") []))).
Proof.
  exact (proj1 (proj2 (proj1
    (describe_surrounding_space TextIO.LF (Some ("version=1" ++ newline))
                                "v2.0.0" [] eq_refl)))).
Defined.

(** * The script as a whole, continued *)



(** X7.  When the script runs to its end it has printed the description,
    stripped, and after it the normalized description exactly when the
    normalization has changed it. *)
Theorem main_prints (w : World) (content out : string) :
  plugin_cfg w = Some content ->
  describe w = Some out ->
  stdout (snd (main w)) =
  (stdout w ++
   Py.strip out ::
   if String.eqb (normalization (Py.strip out)) (Py.strip out)
   then []
   else [normalization (Py.strip out)])%list.
Proof.
  intros Hf Hd. rewrite (main_ok w content out Hf Hd). cbn [snd stdout].
  rewrite normalization_block_printed.
  destruct (2 <=? Py.count (Py.strip out) hyphen) eqn:E.
  - apply Z.leb_le, normalization_changes in E.
    apply String.eqb_neq in E. now rewrite E.
  - apply Z.leb_gt in E.
    assert (Heq : normalization (Py.strip out) = Py.strip out).
    { unfold normalization. now rewrite normalization_few. }
    rewrite Heq, String.eqb_refl. reflexivity.
Qed.

Lemma main_prints_witness :
  stdout (snd (main (mkWorld (Some ("version=1" ++ newline))
                             (Some ("v2.0.0-14-gdeadbe" ++ newline)) [])))
  = ["v2.0.0-14-gdeadbe"; "v2.0.0-14+gdeadbe"].
Proof.
  exact (main_prints (mkWorld (Some ("version=1" ++ newline))
                              (Some ("v2.0.0-14-gdeadbe" ++ newline)) [])
                     ("version=1" ++ newline)
                     ("v2.0.0-14-gdeadbe" ++ newline) eq_refl eq_refl).
Defined.

(** * Writing the file and reading it back *)

Lemma not_line_feed (a : ascii) (s : string) :
  Py.count (String a s) newline = 0 ->
  Ascii.eqb a TextIO.LF = false /\ Py.count s newline = 0.
Proof.
  unfold newline. rewrite count_cons. intro H.
  pose proof (count_nonneg TextIO.LF s) as Hs.
  rewrite Ascii.eqb_sym. destruct (Ascii.eqb TextIO.LF a); [lia|].
  split; [reflexivity|lia].
Qed.

Lemma split_keepends_line (body rest : string) :
  Py.count body newline = 0 ->
  TextIO.split_keepends (body ++ String TextIO.LF rest) =
  (body ++ newline) :: TextIO.split_keepends rest.
Proof.
  induction body as [|a body IH]; intro H; cbn [append].
  - reflexivity.
  - apply not_line_feed in H. destruct H as [Ha Hb].
    cbn [TextIO.split_keepends]. now rewrite Ha, IH.
Qed.

Lemma split_keepends_text (body : string) :
  Py.count body newline = 0 ->
  body <> EmptyString ->
  TextIO.split_keepends body = [body].
Proof.
  induction body as [|a body IH]; intros H Hne; [congruence|].
  apply not_line_feed in H. destruct H as [Ha Hb].
  cbn [TextIO.split_keepends]. rewrite Ha.
  destruct body as [|b body]; [reflexivity|].
  rewrite IH; [reflexivity|exact Hb|discriminate].
Qed.

(** [readlines] returns lines of the expected shape. *)
Lemma lines_ok_split_keepends (s : string) :
  lines_ok (TextIO.split_keepends s).
Proof.
  induction s as [|c s IH]; [constructor|]. cbn [TextIO.split_keepends].
  destruct (Ascii.eqb c TextIO.LF) eqn:E.
  - apply Ascii.eqb_eq in E. subst c.
    apply (lines_ok_cons EmptyString); [reflexivity|exact IH].
  - assert (Hc : forall body, Py.count body newline = 0 ->
                              Py.count (String c body) newline = 0).
    { intros body Hb. unfold newline in *.
      rewrite count_cons, Ascii.eqb_sym, E. lia. }
    inversion IH as [Hnil|body Hb Hne Hbody|body ls Hb Hls Hbody].
    + apply lines_ok_last; [now apply Hc|discriminate].
    + apply lines_ok_last; [now apply Hc|discriminate].
    + apply (lines_ok_cons (String c body)); [now apply Hc|exact Hls].
Qed.

(** Lines of that shape, once written, are read back as they were. *)
Lemma split_keepends_writelines (ls : list string) :
  lines_ok ls -> TextIO.split_keepends (TextIO.writelines ls) = ls.
Proof.
  induction 1 as [|body Hb Hne|body ls Hb Hls IH].
  - reflexivity.
  - unfold TextIO.writelines. cbn [fold_right]. rewrite append_nil_r.
    now apply split_keepends_text.
  - unfold TextIO.writelines in *. cbn [fold_right].
    unfold newline at 1. rewrite append_assoc. cbn [append].
    rewrite split_keepends_line by exact Hb. now rewrite IH.
Qed.

Lemma version_line_no_line_feed (v : string) :
  Py.count v newline = 0 ->
  Py.count ("version=" ++ dquote ++ v ++ dquote) newline = 0.
Proof.
  intro H. unfold newline in *. rewrite !count_app, H. reflexivity.
Qed.

Lemma lines_ok_rewrite (ls : list string) (v : string) :
  Py.count v newline = 0 ->
  lines_ok ls -> lines_ok (map (rewrite_line v) ls).
Proof.
  intro Hv.
  assert (Hshape : forall l, Py.startswith l "version=" = true ->
    rewrite_line v l = ("version=" ++ dquote ++ v ++ dquote) ++ newline).
  { intros l Hl. rewrite rewrite_line_version by exact Hl.
    cbn [append dquote]. do 9 f_equal.
    apply (app_assoc_one v "034"%char newline). }
  induction 1 as [|body Hb Hne|body ls Hb Hls IH]; cbn [map].
  - constructor.
  - destruct (Py.startswith body "version=") eqn:E.
    + rewrite Hshape by exact E.
      apply lines_ok_cons; [now apply version_line_no_line_feed|constructor].
    + rewrite rewrite_line_other by exact E. now apply lines_ok_last.
  - destruct (Py.startswith (body ++ newline) "version=") eqn:E.
    + rewrite Hshape by exact E.
      apply lines_ok_cons; [now apply version_line_no_line_feed|exact IH].
    + rewrite rewrite_line_other by exact E. now apply lines_ok_cons.
Qed.

(** ** Carriage returns *)

Lemma universal_newlines_none (s : string) :
  Py.count s carriage_return = 0 ->
  TextIO.universal_newlines false s = s.
Proof.
  unfold carriage_return.
  induction s as [|c s IH]; intro H; [reflexivity|].
  rewrite count_cons in H. pose proof (count_nonneg TextIO.CR s) as Hs.
  cbn [TextIO.universal_newlines]. rewrite Ascii.eqb_sym.
  destruct (Ascii.eqb TextIO.CR c); [lia|].
  rewrite andb_false_r, IH by lia. reflexivity.
Qed.

Lemma universal_newlines_clean (b : bool) (s : string) :
  Py.count (TextIO.universal_newlines b s) carriage_return = 0.
Proof.
  unfold carriage_return. revert b.
  induction s as [|c s IH]; intro b; [reflexivity|].
  cbn [TextIO.universal_newlines].
  destruct (Ascii.eqb c TextIO.CR) eqn:E.
  - rewrite count_cons, IH. reflexivity.
  - destruct (Ascii.eqb c TextIO.LF && b); [apply IH|].
    rewrite count_cons, IH, Ascii.eqb_sym, E. reflexivity.
Qed.

Lemma without_writelines (c : ascii) (ls : list string) :
  Py.count (TextIO.writelines ls) (String c EmptyString) = 0 <->
  without (String c EmptyString) ls.
Proof.
  unfold without, TextIO.writelines.
  induction ls as [|l ls IH]; cbn [fold_right].
  - split; [constructor|reflexivity].
  - rewrite count_app.
    pose proof (count_nonneg c l) as Hl.
    pose proof (count_nonneg c (fold_right append EmptyString ls)) as Hr.
    split.
    + intro H. constructor; [lia|]. apply IH. lia.
    + intro H. inversion H as [|? ? H1 H2]; subst.
      apply IH in H2. lia.
Qed.

Lemma without_readlines (content : string) :
  without carriage_return (TextIO.readlines content).
Proof.
  unfold carriage_return, TextIO.readlines.
  apply without_writelines. rewrite writelines_split_keepends.
  apply universal_newlines_clean.
Qed.

Lemma without_rewrite (c : ascii) (ls : list string) (v : string) :
  Py.count v (String c EmptyString) = 0 ->
  Py.count ("version=" ++ dquote ++ newline) (String c EmptyString) = 0 ->
  without (String c EmptyString) ls ->
  without (String c EmptyString) (map (rewrite_line v) ls).
Proof.
  intros Hv Hc H. unfold without in *.
  induction H as [|l ls Hl Hls IH]; cbn [map]; constructor; [|exact IH].
  unfold rewrite_line. destruct (Py.startswith l "version="); [|exact Hl].
  rewrite !count_app in *. rewrite Hv.
  pose proof (count_nonneg c "version=").
  pose proof (count_nonneg c dquote).
  pose proof (count_nonneg c newline). lia.
Qed.

(** The lines the script writes are the lines a later [readlines] returns. *)
Lemma readlines_written (content v : string) :
  Py.count v newline = 0 ->
  Py.count v carriage_return = 0 ->
  TextIO.readlines (TextIO.writelines (rewrite (TextIO.readlines content) v)) =
  rewrite (TextIO.readlines content) v.
Proof.
  intros Hlf Hcr. rewrite rewrite_map.
  unfold TextIO.readlines at 1.
  rewrite universal_newlines_none.
  - apply split_keepends_writelines, lines_ok_rewrite; [exact Hlf|].
    apply lines_ok_split_keepends.
  - unfold carriage_return in *. apply without_writelines.
    apply without_rewrite; [exact Hcr|reflexivity|].
    apply without_readlines.
Qed.

Lemma strip_clean (out : string) (c : ascii) :
  c <> "-"%char -> c <> "+"%char ->
  Py.count (Py.strip out) (String c EmptyString) = 0 ->
  Py.count (normalization (Py.strip out)) (String c EmptyString) = 0.
Proof. intros Hh Hp H. now rewrite normalization_other_char. Qed.

(** X8.  When the description holds no line feed and no carriage return,
    the file the script writes is read back as the rewritten lines: one
    line for each line read, in the same order. *)
Theorem written_file_reads_back (w : World) (content out : string) :
  plugin_cfg w = Some content ->
  describe w = Some out ->
  Py.count (Py.strip out) newline = 0 ->
  Py.count (Py.strip out) carriage_return = 0 ->
  exists written : string,
    plugin_cfg (snd (main w)) = Some written /\
    TextIO.readlines written =
    rewrite (TextIO.readlines content) (normalization (Py.strip out)) /\
    List.length (TextIO.readlines written) =
    List.length (TextIO.readlines content).
Proof.
  intros Hf Hd Hlf Hcr.
  apply strip_clean in Hlf; [|discriminate|discriminate].
  apply strip_clean in Hcr; [|discriminate|discriminate].
  rewrite (main_ok w content out Hf Hd). cbn [snd plugin_cfg].
  eexists. split; [reflexivity|].
  rewrite readlines_written by assumption.
  split; [reflexivity|apply rewrite_length].
Qed.

Lemma written_file_reads_back_witness :
  exists written : string,
    plugin_cfg (snd (main (mkWorld (Some ("name=x" ++ newline ++ "version=1"))
                                   (Some ("v2.0.0-14-gdeadbe" ++ newline)) [])))
    = Some written /\
    TextIO.readlines written =
    rewrite (TextIO.readlines ("name=x" ++ newline ++ "version=1"))
            (normalization (Py.strip ("v2.0.0-14-gdeadbe" ++ newline))) /\
    List.length (TextIO.readlines written) =
    List.length (TextIO.readlines ("name=x" ++ newline ++ "version=1")).
Proof.
  exact (written_file_reads_back
           (mkWorld (Some ("name=x" ++ newline ++ "version=1"))
                    (Some ("v2.0.0-14-gdeadbe" ++ newline)) [])
           ("name=x" ++ newline ++ "version=1")
           ("v2.0.0-14-gdeadbe" ++ newline)
           eq_refl eq_refl eq_refl eq_refl).
Defined.

(** X9.  Running the script again, with git giving the same answer, leaves
    the file as the first run wrote it, when the description holds no line
    feed and no carriage return. *)
Theorem second_run_keeps_file (w : World) (content out : string) :
  plugin_cfg w = Some content ->
  describe w = Some out ->
  Py.count (Py.strip out) newline = 0 ->
  Py.count (Py.strip out) carriage_return = 0 ->
  fst (main (snd (main w))) = Ok tt /\
  plugin_cfg (snd (main (snd (main w)))) = plugin_cfg (snd (main w)).
Proof.
  intros Hf Hd Hlf Hcr.
  apply strip_clean in Hlf; [|discriminate|discriminate].
  apply strip_clean in Hcr; [|discriminate|discriminate].
  rewrite (main_ok w content out Hf Hd). cbn [snd].
  match goal with
  | |- context [main ?w1] =>
      rewrite (main_ok w1 _ out eq_refl Hd)
  end.
  cbn [fst snd plugin_cfg]. split; [reflexivity|].
  rewrite readlines_written by assumption.
  rewrite !rewrite_map, map_map. do 2 f_equal.
  apply map_ext. intro line. apply rewrite_line_twice.
Qed.

Lemma second_run_keeps_file_witness :
  plugin_cfg
    (snd (main (snd (main (mkWorld (Some ("name=x" ++ newline ++ "version=1"))
                                   (Some ("v2.0.0-14-gdeadbe" ++ newline)) [])))))
  = Some ("name=x" ++ newline ++
          "version=" ++ dquote ++ "v2.0.0-14+gdeadbe" ++ dquote ++ newline).
Proof.
  exact (proj2 (second_run_keeps_file
           (mkWorld (Some ("name=x" ++ newline ++ "version=1"))
                    (Some ("v2.0.0-14-gdeadbe" ++ newline)) [])
           ("name=x" ++ newline ++ "version=1")
           ("v2.0.0-14-gdeadbe" ++ newline)
           eq_refl eq_refl eq_refl eq_refl)).
Defined.

(** X10.  A file that holds no carriage return and no line that begins
    with [version=] is written back character for character. *)
Theorem file_without_version_unchanged (w : World) (content out : string) :
  plugin_cfg w = Some content ->
  describe w = Some out ->
  Py.count content carriage_return = 0 ->
  (forall line, In line (TextIO.readlines content) ->
                Py.startswith line "version=" = false) ->
  plugin_cfg (snd (main w)) = Some content.
Proof.
  intros Hf Hd Hcr Hno.
  rewrite (main_ok w content out Hf Hd). cbn [snd plugin_cfg]. f_equal.
  rewrite rewrite_map.
  assert (Hid : forall ls : list string,
             (forall line, In line ls -> Py.startswith line "version=" = false) ->
             map (rewrite_line (normalization (Py.strip out))) ls = ls).
  { induction ls as [|l ls IH]; intro H; [reflexivity|]. cbn [map].
    rewrite rewrite_line_other by (apply H; now left).
    rewrite IH; [reflexivity|]. intros l' Hl'. apply H. now right. }
  rewrite Hid by exact Hno. unfold TextIO.readlines.
  rewrite writelines_split_keepends. now apply universal_newlines_none.
Qed.

Lemma file_without_version_unchanged_witness :
  plugin_cfg (snd (main (mkWorld (Some ("name=x" ++ newline ++ " version=1"))
                                 (Some ("v2.0.0" ++ newline)) [])))
  = Some ("name=x" ++ newline ++ " version=1").
Proof.
  apply (file_without_version_unchanged
           (mkWorld (Some ("name=x" ++ newline ++ " version=1"))
                    (Some ("v2.0.0" ++ newline)) [])
           ("name=x" ++ newline ++ " version=1")
           ("v2.0.0" ++ newline) eq_refl eq_refl eq_refl).
  intros line [<-|[<-|[]]]; reflexivity.
Defined.
